(** * triangulate_point_cloud: the triangulation service

    A shallow embedding of [src/triangulate_point_cloud/src/triangulate_pcl.cpp]
    and the properties of its three functions, [reconstructMesh],
    [polygonMeshToShapeMsg] and [onTriangulatePcl].

    The file follows the source top-down.  Message and point types are
    records, one module per C++ namespace.  [ROS_INFO] and [ROS_WARN] write
    to a log, modelled by a writer monad.  The calls into PCL and into the
    ROS conversion helpers are not part of the sources: they are the fields
    of the record [Library], and every statement below is made for an
    arbitrary library.  A library call is taken to return; the source
    wraps none of them in a handler and has no error path of its own. *)

From Stdlib Require Import Floats NArith ZArith.
From stdpp Require Import base list strings.

Set Default Proof Using "Type".

(** ** Data model *)

(** [pcl::PointXYZ], [pcl::PointNormal], [pcl::PointCloud<T>] and
    [pcl::Vertices].  The coordinates are C [float]s; they are held as the
    binary64 values they widen to, the widening being exact.  Of a cloud
    the source reads the [points] vector only. *)
Module pcl.
Record PointXYZ := { x : float; y : float; z : float }.

(** The position is [x], [y], [z] in the source; the fields are named
    [nx], [ny], [nz] here to keep them apart from [PointXYZ]'s. *)
Record PointNormal := {
    nx : float; ny : float; nz : float;
    normal_x : float; normal_y : float; normal_z : float;
    curvature : float }.

Record PointCloud (T : Type) := { points : list T }.
Arguments points {T} _.

(** [uint32_t] indices into a cloud. *)
Record Vertices := { vertices : list N }.
End pcl.

(** [geometry_msgs::Point] (three [double]s) and [geometry_msgs::Point32]. *)
Module geometry_msgs.
Record Point := { x : float; y : float; z : float }.
Record Point32 := { x32 : float; y32 : float; z32 : float }.

(** [geometry_msgs::Point()]: the generated constructor zeroes the fields. *)
Definition new_Point : Point := {| x := 0; y := 0; z := 0 |}.

Definition set_x (v : float) (p : Point) : Point := {| x := v; y := y p; z := z p |}.
Definition set_y (v : float) (p : Point) : Point := {| x := x p; y := v; z := z p |}.
Definition set_z (v : float) (p : Point) : Point := {| x := x p; y := y p; z := v |}.
End geometry_msgs.

(** [sensor_msgs::PointCloud]: the request's cloud.  The source hands it to
    the conversion helper as a whole. *)
Module sensor_msgs.
Record PointCloud := { points : list geometry_msgs.Point32 }.
End sensor_msgs.

(** [shape_msgs::MeshTriangle] and [shape_msgs::Mesh]. *)
Module shape_msgs.
(** [boost::array<uint32_t, 3>] *)
Record MeshTriangle := { vertex_indices : N * N * N }.

Record Mesh := {
    triangles : list MeshTriangle;
    vertices : list geometry_msgs.Point }.

(** [shape_msgs::MeshTriangle()]: the generated constructor fills
      [vertex_indices] with zeroes. *)
Definition new_MeshTriangle : MeshTriangle :=
    {| vertex_indices := (0, 0, 0)%N |}.

Definition new_Mesh : Mesh := {| triangles := []; vertices := [] |}.

Definition set_vertex_indices (a : N * N * N) (t : MeshTriangle) : MeshTriangle :=
    {| vertex_indices := a |}.
Definition set_triangles (ts : list MeshTriangle) (m : Mesh) : Mesh :=
    {| triangles := ts; vertices := vertices m |}.
Definition set_vertices (vs : list geometry_msgs.Point) (m : Mesh) : Mesh :=
    {| triangles := triangles m; vertices := vs |}.
End shape_msgs.

(** The service's request and response, [TriangulatePCL::Request] and
    [TriangulatePCL::Response]. *)
Module TriangulatePCL.
Record Request := { points : sensor_msgs.PointCloud }.
Record Response := { mesh : shape_msgs.Mesh }.
Definition set_mesh (m : shape_msgs.Mesh) (r : Response) : Response :=
    {| mesh := m |}.
End TriangulatePCL.

#[export] Instance Point_inhabited : Inhabited geometry_msgs.Point :=
  populate geometry_msgs.new_Point.

(** ** Logging *)

Inductive Level := INFO | WARN.

(** One call of a [ROS_*] macro: the level, the format string and the
    arguments of the format. *)
Record LogRecord := { level : Level; format : string; args : list Z }.

#[export] Instance Level_eq_dec : EqDecision Level.
Proof. solve_decision. Defined.

(** A computation that returns a value and the records it has logged. *)
Record Logged (A : Type) := { value : A; output : list LogRecord }.
Arguments value {A} _.
Arguments output {A} _.

#[export] Instance Logged_ret : MRet Logged :=
  fun A a => {| value := a; output := [] |}.
#[export] Instance Logged_bind : MBind Logged :=
  fun A B f m =>
    let r := f (value m) in
    {| value := value r; output := output m ++ output r |}.

Definition ROS_INFO (fmt : string) (a : list Z) : Logged unit :=
  {| value := tt; output := [ {| level := INFO; format := fmt; args := a |} ] |}.
Definition ROS_WARN (fmt : string) (a : list Z) : Logged unit :=
  {| value := tt; output := [ {| level := WARN; format := fmt; args := a |} ] |}.

(** ** Loops *)

(** [for (size_t i = 0; i < n; ++i) body] over a state [S]. *)
Definition for_size_t {S : Type} (n : nat) (body : nat -> S -> S) (s : S) : S :=
  foldl (fun s i => body i s) s (seq 0 n).

(** [BOOST_FOREACH(const A a, l) body], the body logging as it goes; a
    [continue] is the body returning early. *)
Fixpoint BOOST_FOREACH {A S : Type} (body : A -> S -> Logged S) (l : list A) (s : S)
  : Logged S :=
  match l with
  | [] => mret s
  | a :: l' => s' ← body a s; BOOST_FOREACH body l' s'
  end.

(** ** The libraries *)

(** The conversion from [size_t] to [int] when [i] is stored into
    [indices], two's complement on 32 bits. *)
Definition to_int (n : Z) : Z := ((n + 2 ^ 31) mod 2 ^ 32 - 2 ^ 31)%Z.

(** The settings of a [pcl::MovingLeastSquares] object that the source
    sets before [process]. *)
Record MovingLeastSquares (Tree : Type) := {
  mls_input : pcl.PointCloud pcl.PointXYZ;
  mls_indices : list Z;
  mls_polynomial_fit : bool;
  mls_search_method : Tree;
  mls_search_radius : float }.
Arguments mls_input {Tree} _.
Arguments mls_indices {Tree} _.
Arguments mls_polynomial_fit {Tree} _.
Arguments mls_search_method {Tree} _.
Arguments mls_search_radius {Tree} _.

(** What the source calls and does not define.  The out-parameters of
    [ConvexHull::reconstruct] belong to the caller of [reconstructMesh], so
    their incoming values are arguments; the other calls write into objects
    created just before. *)
Record Library := {
  PointCloud2 : Type;
  convertPointCloudToPointCloud2 : sensor_msgs.PointCloud -> PointCloud2;
  fromROSMsg : PointCloud2 -> pcl.PointCloud pcl.PointXYZ;
  KdTree : Type;
  KdTree_setInputCloud : pcl.PointCloud pcl.PointXYZ -> KdTree;
  MovingLeastSquares_process :
    MovingLeastSquares KdTree -> pcl.PointCloud pcl.PointNormal;
  ConvexHull_reconstruct :
    pcl.PointCloud pcl.PointXYZ ->
    pcl.PointCloud pcl.PointXYZ -> list pcl.Vertices ->
    pcl.PointCloud pcl.PointXYZ * list pcl.Vertices }.

(** ** reconstructMesh *)

Section Reconstruct.
Variable L : Library.

(** Lines 57-59: [indices] is resized to the cloud's size and filled with
      [0, 1, ..., n-1]. *)
Definition make_indices (cloud : pcl.PointCloud pcl.PointXYZ) : list Z :=
    let indices := resize (length (pcl.points cloud)) 0%Z [] in
    for_size_t (length indices) (fun i indices => <[i := to_int (Z.of_nat i)]> indices) indices.

(** Lines 61-74: the smoothing stage.  [process] writes its result into
      [mls_normals]. *)
Definition smooth (cloud : pcl.PointCloud pcl.PointXYZ) : pcl.PointCloud pcl.PointNormal :=
    let indices := make_indices cloud in
    let tree := KdTree_setInputCloud L cloud in
    let mls :=
      {| mls_input := cloud;
         mls_indices := indices;
         mls_polynomial_fit := true;
         mls_search_method := tree;
         mls_search_radius := 0x1.eb851eb851eb8p-6 (* 0.03 *) |} in
    MovingLeastSquares_process L mls.

(** Lines 54-80.  [mls_points] is created empty and nothing writes to it
      before the hull takes it as its input. *)
Definition reconstructMesh (cloud : pcl.PointCloud pcl.PointXYZ)
      (output_cloud : pcl.PointCloud pcl.PointXYZ) (triangles : list pcl.Vertices)
    : pcl.PointCloud pcl.PointXYZ * list pcl.Vertices :=
    let mls_points : pcl.PointCloud pcl.PointXYZ := {| pcl.points := [] |} in
    let mls_normals := smooth cloud in
    let ch_input := mls_points in
    ConvexHull_reconstruct L ch_input output_cloud triangles.
End Reconstruct.

(** ** toPoint and polygonMeshToShapeMsg *)

(** The point types the templates are instantiated at: anything with
    members [x], [y], [z] that convert to [double]. *)
Class HasXYZ (T : Type) := {
  get_x : T -> float;
  get_y : T -> float;
  get_z : T -> float }.

#[export] Instance PointXYZ_HasXYZ : HasXYZ pcl.PointXYZ :=
  {| get_x := pcl.x; get_y := pcl.y; get_z := pcl.z |}.

Section Convert.
Context {T : Type} `{HasXYZ T}.

Definition toPoint (in_ : T) (out : geometry_msgs.Point) : geometry_msgs.Point :=
    let out := geometry_msgs.set_x (get_x in_) out in
    let out := geometry_msgs.set_y (get_y in_) out in
    let out := geometry_msgs.set_z (get_z in_) out in
    out.

(** Lines 95-97. *)
Definition copy_vertices (points : pcl.PointCloud T) (mesh : shape_msgs.Mesh)
    : shape_msgs.Mesh :=
    let mesh :=
      shape_msgs.set_vertices
        (resize (length (pcl.points points)) geometry_msgs.new_Point (shape_msgs.vertices mesh))
        mesh in
    for_size_t (length (pcl.points points))
      (fun i mesh =>
         match pcl.points points !! i with
         | Some p =>
             shape_msgs.set_vertices
               (<[i := toPoint p (shape_msgs.vertices mesh !!! i)]> (shape_msgs.vertices mesh))
               mesh
         | None => mesh
         end)
      mesh.

(** Lines 101-113: the body of the loop over the polygons. *)
Definition polygon_body (polygon : pcl.Vertices) (mesh : shape_msgs.Mesh)
    : Logged shape_msgs.Mesh :=
    if decide (length (pcl.vertices polygon) < 3) then
      ROS_WARN "Not enough points in polygon. Ignoring it." [];;
      mret mesh
    else
      let triangle := shape_msgs.new_MeshTriangle in
      let xyz : N * N * N :=
        (pcl.vertices polygon !!! 0, pcl.vertices polygon !!! 1, pcl.vertices polygon !!! 2) in
      let triangle := shape_msgs.set_vertex_indices xyz triangle in
      mret (shape_msgs.set_triangles
              (shape_msgs.triangles mesh ++ [shape_msgs.new_MeshTriangle]) mesh).

(** Lines 90-114. *)
Definition polygonMeshToShapeMsg (points : pcl.PointCloud T)
      (triangles : list pcl.Vertices) (mesh : shape_msgs.Mesh)
    : Logged shape_msgs.Mesh :=
    let mesh := copy_vertices points mesh in
    ROS_INFO "Found %ld polygons" [Z.of_nat (length triangles)];;
    BOOST_FOREACH polygon_body triangles mesh.
End Convert.

(** ** onTriangulatePcl *)

Section Service.
Variable L : Library.

(** Lines 116-138.  The value is the handler's [bool] and the response
      it leaves behind. *)
Definition onTriangulatePcl (req : TriangulatePCL.Request) (res : TriangulatePCL.Response)
    : Logged (bool * TriangulatePCL.Response) :=
    ROS_INFO "Service request received" [];;
    let cloud_raw := convertPointCloudToPointCloud2 L (TriangulatePCL.points req) in
    let cloud := fromROSMsg L cloud_raw in
    let out_cloud : pcl.PointCloud pcl.PointXYZ := {| pcl.points := [] |} in
    let triangles : list pcl.Vertices := [] in
    ROS_INFO "Triangulating" [];;
    let '(out_cloud, triangles) := reconstructMesh L cloud out_cloud triangles in
    ROS_INFO "Triangulation done" [];;
    ROS_INFO "Converting to shape message" [];;
    mesh ← polygonMeshToShapeMsg out_cloud triangles (TriangulatePCL.mesh res);
    let res := TriangulatePCL.set_mesh mesh res in
    ROS_INFO "Service processing done" [];;
    mret (true, res).
End Service.

(** ** Reading a run of the handler *)

(** Lines 120-123: the cloud the handler passes to [reconstructMesh]. *)
Definition request_cloud (L : Library) (req : TriangulatePCL.Request)
  : pcl.PointCloud pcl.PointXYZ :=
  fromROSMsg L (convertPointCloudToPointCloud2 L (TriangulatePCL.points req)).

(** The handler's only failure signal is its [bool]: [false] tells the
    caller that the request failed. *)
Definition request_failed (r : Logged (bool * TriangulatePCL.Response)) : Prop :=
  (value r).1 = false.

Definition response_mesh (r : Logged (bool * TriangulatePCL.Response)) : shape_msgs.Mesh :=
  TriangulatePCL.mesh (value r).2.



(** The polygons that pass, and those that fail, the test of line 102. *)
Definition surviving (triangles : list pcl.Vertices) : list pcl.Vertices :=
  filter (fun polygon => ¬ length (pcl.vertices polygon) < 3) triangles.

Definition dropped (triangles : list pcl.Vertices) : list pcl.Vertices :=
  filter (fun polygon => length (pcl.vertices polygon) < 3) triangles.

(** The record that line 104 logs. *)
Definition polygon_warning : LogRecord :=
  {| level := WARN; format := "Not enough points in polygon. Ignoring it."; args := [] |}.

(** ** Sample data *)

(** The corners of the unit tetrahedron. *)
Definition tetrahedron : pcl.PointCloud pcl.PointXYZ :=
  {| pcl.points :=
       [ {| pcl.x := 0; pcl.y := 0; pcl.z := 0 |};
         {| pcl.x := 1; pcl.y := 0; pcl.z := 0 |};
         {| pcl.x := 0; pcl.y := 1; pcl.z := 0 |};
         {| pcl.x := 0; pcl.y := 0; pcl.z := 1 |} ] |}.

Definition tetrahedron_faces : list pcl.Vertices :=
  [ {| pcl.vertices := [0; 1; 2]%N |}; {| pcl.vertices := [0; 1; 3]%N |};
    {| pcl.vertices := [0; 2; 3]%N |}; {| pcl.vertices := [1; 2; 3]%N |} ].

Definition tetrahedron_request : TriangulatePCL.Request :=
  {| TriangulatePCL.points :=
       {| sensor_msgs.points :=
            [ {| geometry_msgs.x32 := 0; geometry_msgs.y32 := 0; geometry_msgs.z32 := 0 |};
              {| geometry_msgs.x32 := 1; geometry_msgs.y32 := 0; geometry_msgs.z32 := 0 |};
              {| geometry_msgs.x32 := 0; geometry_msgs.y32 := 1; geometry_msgs.z32 := 0 |};
              {| geometry_msgs.x32 := 0; geometry_msgs.y32 := 0; geometry_msgs.z32 := 1 |} ] |} |}.

Definition empty_request : TriangulatePCL.Request :=
  {| TriangulatePCL.points := {| sensor_msgs.points := [] |} |}.

Definition new_Response : TriangulatePCL.Response :=
  {| TriangulatePCL.mesh := shape_msgs.new_Mesh |}.

(** A response that still holds two vertices of an earlier mesh. *)
Definition stale_Response : TriangulatePCL.Response :=
  {| TriangulatePCL.mesh :=
       {| shape_msgs.triangles := [];
          shape_msgs.vertices :=
            [ {| geometry_msgs.x := 1; geometry_msgs.y := 1; geometry_msgs.z := 1 |};
              {| geometry_msgs.x := 2; geometry_msgs.y := 2; geometry_msgs.z := 2 |} ] |} |}.

(** An instance of [Library] to run the handler on.  The conversions copy
    the coordinates, the smoother leaves each point where it is, and the
    hull returns its input cloud with the four faces of its first four
    points (nothing for fewer than four points): the hull of a cloud that
    is a tetrahedron, and a stand-in otherwise. *)
Definition sample_library : Library :=
  {| PointCloud2 := list geometry_msgs.Point32;
     convertPointCloudToPointCloud2 := sensor_msgs.points;
     fromROSMsg := fun raw =>
       {| pcl.points :=
            (fun p => {| pcl.x := geometry_msgs.x32 p;
                         pcl.y := geometry_msgs.y32 p;
                         pcl.z := geometry_msgs.z32 p |}) <$> raw |};
     KdTree := pcl.PointCloud pcl.PointXYZ;
     KdTree_setInputCloud := fun cloud => cloud;
     MovingLeastSquares_process := fun mls =>
       {| pcl.points :=
            (fun p => {| pcl.nx := pcl.x p; pcl.ny := pcl.y p; pcl.nz := pcl.z p;
                         pcl.normal_x := 0; pcl.normal_y := 0; pcl.normal_z := 1;
                         pcl.curvature := 0 |}) <$> pcl.points (mls_input mls) |};
     ConvexHull_reconstruct := fun input _ _ =>
       if decide (length (pcl.points input) < 4)
       then ({| pcl.points := [] |}, [])
       else (input, tetrahedron_faces) |}.

(** ** The pipeline as the specification words it *)

(** The positions of a smoothed cloud, its normals left out. *)
Definition smoothed_points (mls_normals : pcl.PointCloud pcl.PointNormal)
  : pcl.PointCloud pcl.PointXYZ :=
  {| pcl.points :=
       (fun p => {| pcl.x := pcl.nx p; pcl.y := pcl.ny p; pcl.z := pcl.nz p |})
         <$> pcl.points mls_normals |}.

(** "raw points, Smoother, smoothed points, Reconstructor": the hull taken
    over what the smoother returned.  This is the specification's wording,
    set beside [reconstructMesh] for comparison; it is not the source. *)
Definition reconstructMesh_over_smoothed (L : Library)
    (cloud : pcl.PointCloud pcl.PointXYZ)
    (output_cloud : pcl.PointCloud pcl.PointXYZ) (triangles : list pcl.Vertices)
  : pcl.PointCloud pcl.PointXYZ * list pcl.Vertices :=
  ConvexHull_reconstruct L (smoothed_points (smooth L cloud)) output_cloud triangles.

(** ** test *)

(** What [test] calls besides the handler: the PCD reader, whose [read]
    returns a code and fills a cloud, and the two conversions back to the
    request's cloud type. *)
Record TestLibrary (L : Library) := {
  PCDReader_read : string -> Z * pcl.PointCloud pcl.PointXYZ;
  toROSMsg : pcl.PointCloud pcl.PointXYZ -> PointCloud2 L;
  convertPointCloud2ToPointCloud : PointCloud2 L -> sensor_msgs.PointCloud }.
Arguments PCDReader_read {L} _ _.
Arguments toROSMsg {L} _ _.
Arguments convertPointCloud2ToPointCloud {L} _ _.

(** What a run of [test] leaves to see: the lines [PCL_ERROR] wrote to
    PCL's console, and the ROS log. *)
Record TestRun := { console : list string; ros_log : list LogRecord }.

Definition newline : string := String (Ascii.ascii_of_nat 10) EmptyString.

(** Lines 140-160.  The response of the handler is dropped. *)
Definition test (L : Library) (TL : TestLibrary L) : TestRun :=
  let '(code, pcl_cloud) := PCDReader_read TL "test_data/ism_test_cat.pcd" in
  if decide (code < 0)%Z then
    {| console := ["Couldn't read file test_data/ism_test_cat.pcd " +:+ newline];
       ros_log := [] |}
  else
    let sensor_cloud2 := toROSMsg TL pcl_cloud in
    let sensor_cloud1 := convertPointCloud2ToPointCloud TL sensor_cloud2 in
    let req := {| TriangulatePCL.points := sensor_cloud1 |} in
    let res := {| TriangulatePCL.mesh := shape_msgs.new_Mesh |} in
    let r := onTriangulatePcl L req res in
    {| console := []; ros_log := output r |}.

(** The companion of [sample_library] for [test]: a reader that finds the
    tetrahedron under every name, and conversions that copy the
    coordinates. *)
Definition sample_test_library : TestLibrary sample_library :=
  Build_TestLibrary sample_library
    (fun _ => (0%Z, tetrahedron))
    (fun cloud =>
       (fun p => {| geometry_msgs.x32 := pcl.x p;
                    geometry_msgs.y32 := pcl.y p;
                    geometry_msgs.z32 := pcl.z p |}) <$> pcl.points cloud)
    (fun raw => {| sensor_msgs.points := raw |}).

(** A reader that finds no file. *)
Definition missing_file_library : TestLibrary sample_library :=
  Build_TestLibrary sample_library
    (fun _ => ((-1)%Z, {| pcl.points := [] |}))
    (toROSMsg sample_test_library)
    (convertPointCloud2ToPointCloud sample_test_library).

(** The first record of a run of the handler. *)
Definition request_received : LogRecord :=
  {| level := INFO; format := "Service request received"; args := [] |}.

#[export] Instance LogRecord_eq_dec : EqDecision LogRecord.
Proof. solve_decision. Defined.

(** * Properties *)

(** ** The loops *)

Lemma for_size_t_S {S : Type} (n : nat) (body : nat -> S -> S) (s : S) :
  for_size_t (Datatypes.S n) body s = body n (for_size_t n body s).
Proof.
  unfold for_size_t. rewrite seq_S, foldl_app. reflexivity.
Qed.

(** A loop that stores [g i] at every position [i < k] leaves the first
    [k] positions holding [g 0 .. g (k-1)] and the rest as they were. *)
Lemma for_size_t_insert {A : Type} (g : nat -> A) (k : nat) (l : list A) :
  k ≤ length l ->
  for_size_t k (fun i l => <[i := g i]> l) l = (g <$> seq 0 k) ++ drop k l.
Proof.
  induction k as [|k IH]; intros Hk.
  - reflexivity.
  - rewrite for_size_t_S, IH by lia.
    destruct (lookup_lt_is_Some_2 l k) as [v Hv]; [lia|].
    rewrite insert_app_r_alt by (rewrite length_fmap, length_seq; lia).
    rewrite length_fmap, length_seq, Nat.sub_diag.
    rewrite seq_S, fmap_app, <- app_assoc. f_equal.
    rewrite (drop_S l v k Hv). reflexivity.
Qed.

Lemma make_indices_spec (cloud : pcl.PointCloud pcl.PointXYZ) :
  make_indices cloud = (fun i => to_int (Z.of_nat i)) <$> seq 0 (length (pcl.points cloud)).
Proof.
  unfold make_indices. cbv zeta.
  rewrite for_size_t_insert by reflexivity.
  rewrite drop_all, app_nil_r, length_resize. reflexivity.
Qed.

(** ** toPoint and the vertex copy *)

Section ConvertFacts.
Context {T : Type} `{HasXYZ T}.

(** [toPoint] overwrites every field of [out]. *)
Lemma toPoint_out (p : T) (out : geometry_msgs.Point) :
  toPoint p out =
  {| geometry_msgs.x := get_x p; geometry_msgs.y := get_y p; geometry_msgs.z := get_z p |}.
Proof. reflexivity. Qed.

Lemma copy_vertices_prefix (points : pcl.PointCloud T) (mesh : shape_msgs.Mesh) (k : nat) :
  k ≤ length (pcl.points points) ->
  length (shape_msgs.vertices mesh) = length (pcl.points points) ->
  for_size_t k
    (fun i mesh =>
       match pcl.points points !! i with
       | Some p =>
           shape_msgs.set_vertices
             (<[i := toPoint p (shape_msgs.vertices mesh !!! i)]> (shape_msgs.vertices mesh))
             mesh
       | None => mesh
       end) mesh
  = shape_msgs.set_vertices
      (((fun p => toPoint p geometry_msgs.new_Point) <$> take k (pcl.points points))
         ++ drop k (shape_msgs.vertices mesh)) mesh.
Proof.
  intros Hk Hlen. induction k as [|k IH].
  - destruct mesh; reflexivity.
  - rewrite for_size_t_S, IH by lia.
    destruct (lookup_lt_is_Some_2 (pcl.points points) k) as [p Hp]; [lia|].
    destruct (lookup_lt_is_Some_2 (shape_msgs.vertices mesh) k) as [v Hv]; [lia|].
    rewrite Hp. unfold shape_msgs.set_vertices at 1. simpl.
    rewrite insert_app_r_alt by (rewrite length_fmap, length_take; lia).
    rewrite length_fmap, length_take, Nat.min_l, Nat.sub_diag by lia.
    rewrite (take_S_r _ k p Hp), fmap_app, <- app_assoc.
    rewrite (drop_S _ v k Hv). reflexivity.
Qed.

(** After lines 95-97 the mesh has one vertex per point of the cloud, in
    the cloud's order, and its triangles are untouched. *)
Lemma copy_vertices_spec (points : pcl.PointCloud T) (mesh : shape_msgs.Mesh) :
  copy_vertices points mesh =
  shape_msgs.set_vertices
    ((fun p => toPoint p geometry_msgs.new_Point) <$> pcl.points points) mesh.
Proof.
  unfold copy_vertices. cbv zeta.
  rewrite copy_vertices_prefix; [|lia|simpl; apply length_resize].
  simpl. rewrite firstn_all, drop_ge, app_nil_r by (rewrite length_resize; lia).
  reflexivity.
Qed.

(** ** The loop over the polygons *)

Lemma polygon_body_dropped (polygon : pcl.Vertices) (mesh : shape_msgs.Mesh) :
  length (pcl.vertices polygon) < 3 ->
  polygon_body polygon mesh = {| value := mesh; output := [polygon_warning] |}.
Proof.
  intros Hlt. unfold polygon_body. rewrite decide_True by exact Hlt. reflexivity.
Qed.

Lemma polygon_body_surviving (polygon : pcl.Vertices) (mesh : shape_msgs.Mesh) :
  ¬ length (pcl.vertices polygon) < 3 ->
  polygon_body polygon mesh =
  {| value := shape_msgs.set_triangles
                (shape_msgs.triangles mesh ++ [shape_msgs.new_MeshTriangle]) mesh;
     output := [] |}.
Proof.
  intros Hge. unfold polygon_body. rewrite decide_False by exact Hge. reflexivity.
Qed.

Lemma foreach_polygons (triangles : list pcl.Vertices) (mesh : shape_msgs.Mesh) :
  BOOST_FOREACH polygon_body triangles mesh =
  {| value := shape_msgs.set_triangles
                (shape_msgs.triangles mesh
                   ++ replicate (length (surviving triangles)) shape_msgs.new_MeshTriangle)
                mesh;
     output := replicate (length (dropped triangles)) polygon_warning |}.
Proof.
  revert mesh. induction triangles as [|polygon triangles IH]; intros mesh.
  - simpl. rewrite app_nil_r. destruct mesh; reflexivity.
  - cbn [BOOST_FOREACH]. unfold surviving, dropped. rewrite !filter_cons.
    destruct (decide (length (pcl.vertices polygon) < 3)) as [Hlt|Hge].
    + rewrite decide_False by tauto.
      rewrite polygon_body_dropped by exact Hlt.
      unfold mbind, Logged_bind. simpl. rewrite IH. reflexivity.
    + rewrite decide_True by exact Hge.
      rewrite polygon_body_surviving by exact Hge.
      unfold mbind, Logged_bind. simpl. rewrite IH. simpl.
      rewrite <- app_assoc. reflexivity.
Qed.

(** The mesh and the log that [polygonMeshToShapeMsg] leaves. *)
Lemma polygonMeshToShapeMsg_spec (points : pcl.PointCloud T)
    (triangles : list pcl.Vertices) (mesh : shape_msgs.Mesh) :
  polygonMeshToShapeMsg points triangles mesh =
  {| value :=
       {| shape_msgs.triangles :=
            shape_msgs.triangles mesh
              ++ replicate (length (surviving triangles)) shape_msgs.new_MeshTriangle;
          shape_msgs.vertices :=
            (fun p => toPoint p geometry_msgs.new_Point) <$> pcl.points points |};
     output :=
       {| level := INFO; format := "Found %ld polygons";
          args := [Z.of_nat (length triangles)] |}
         :: replicate (length (dropped triangles)) polygon_warning |}.
Proof.
  unfold polygonMeshToShapeMsg. cbv zeta.
  rewrite copy_vertices_spec.
  unfold mbind, Logged_bind. rewrite foreach_polygons. reflexivity.
Qed.

End ConvertFacts.

(** ** The handler *)

(** What a run of the handler returns: [true], and a mesh made of the hull
    of the empty cloud. *)
Lemma onTriangulatePcl_value (L : Library)
    (req : TriangulatePCL.Request) (res : TriangulatePCL.Response) :
  value (onTriangulatePcl L req res) =
  (true,
   {| TriangulatePCL.mesh :=
        let hull := ConvexHull_reconstruct L {| pcl.points := [] |} {| pcl.points := [] |} [] in
        {| shape_msgs.triangles :=
             shape_msgs.triangles (TriangulatePCL.mesh res)
               ++ replicate (length (surviving hull.2)) shape_msgs.new_MeshTriangle;
           shape_msgs.vertices :=
             (fun p => toPoint p geometry_msgs.new_Point) <$> pcl.points hull.1 |} |}).
Proof.
  unfold onTriangulatePcl, reconstructMesh. cbv zeta.
  destruct (ConvexHull_reconstruct L _ _ _) as [out_cloud triangles].
  unfold mbind, Logged_bind. cbv zeta. rewrite polygonMeshToShapeMsg_spec.
  reflexivity.
Qed.

Lemma onTriangulatePcl_output (L : Library)
    (req : TriangulatePCL.Request) (res : TriangulatePCL.Response) :
  output (onTriangulatePcl L req res) =
  let hull := ConvexHull_reconstruct L {| pcl.points := [] |} {| pcl.points := [] |} [] in
  [ {| level := INFO; format := "Service request received"; args := [] |};
    {| level := INFO; format := "Triangulating"; args := [] |};
    {| level := INFO; format := "Triangulation done"; args := [] |};
    {| level := INFO; format := "Converting to shape message"; args := [] |};
    {| level := INFO; format := "Found %ld polygons"; args := [Z.of_nat (length hull.2)] |} ]
    ++ replicate (length (dropped hull.2)) polygon_warning
    ++ [ {| level := INFO; format := "Service processing done"; args := [] |} ].
Proof.
  unfold onTriangulatePcl, reconstructMesh. cbv zeta.
  destruct (ConvexHull_reconstruct L _ _ _) as [out_cloud triangles].
  unfold mbind, Logged_bind. cbv zeta. rewrite polygonMeshToShapeMsg_spec.
  reflexivity.
Qed.

(** A run on the sample data: four points go in, and the mesh that comes
    back has neither vertices nor triangles. *)
Example onTriangulatePcl_tetrahedron :
  onTriangulatePcl sample_library tetrahedron_request new_Response =
  {| value := (true, new_Response);
     output :=
       [ {| level := INFO; format := "Service request received"; args := [] |};
         {| level := INFO; format := "Triangulating"; args := [] |};
         {| level := INFO; format := "Triangulation done"; args := [] |};
         {| level := INFO; format := "Converting to shape message"; args := [] |};
         {| level := INFO; format := "Found %ld polygons"; args := [0%Z] |};
         {| level := INFO; format := "Service processing done"; args := [] |} ] |}.
Proof. reflexivity. Qed.

(** The same four points, smoothed and then given to the hull as the
    specification words it, do have a hull. *)
Example reconstructMesh_over_smoothed_tetrahedron :
  reconstructMesh_over_smoothed sample_library tetrahedron {| pcl.points := [] |} [] =
  (tetrahedron, tetrahedron_faces)
  /\ reconstructMesh sample_library tetrahedron {| pcl.points := [] |} [] =
     ({| pcl.points := [] |}, []).
Proof. split; reflexivity. Qed.

(** * The claims *)

(** C1 (the code departs from the claim).  The claim has the hull computed
    over the smoother's output.  In the source the hull's input is
    [mls_points], created empty and never written: [process] writes into
    [mls_normals].  For every library, every input cloud and every pair of
    out-parameters, [reconstructMesh] returns the hull of the empty cloud;
    hence any two input clouds give the same result, and the result is not
    a function of what the smoother returned. *)
Theorem reconstructMesh_hull_of_empty_cloud (L : Library)
    (cloud cloud' : pcl.PointCloud pcl.PointXYZ)
    (output_cloud : pcl.PointCloud pcl.PointXYZ) (triangles : list pcl.Vertices) :
  reconstructMesh L cloud output_cloud triangles =
    ConvexHull_reconstruct L {| pcl.points := [] |} output_cloud triangles
  /\ reconstructMesh L cloud output_cloud triangles =
     reconstructMesh L cloud' output_cloud triangles.
Proof. split; reflexivity. Qed.

(** C2.  Every triangle that [polygonMeshToShapeMsg] appends is the
    default-constructed [MeshTriangle], with indices (0, 0, 0): the mesh's
    triangles are those it came with followed by one default triangle per
    surviving polygon, whatever the polygons' indices.  The same holds of
    the mesh the handler puts in its response, for every request. *)
Theorem polygonMeshToShapeMsg_triangles_default {T : Type} `{HasXYZ T}
    (points : pcl.PointCloud T) (triangles : list pcl.Vertices) (mesh : shape_msgs.Mesh)
    (L : Library) (req : TriangulatePCL.Request) (res : TriangulatePCL.Response) :
  shape_msgs.triangles (value (polygonMeshToShapeMsg points triangles mesh)) =
    shape_msgs.triangles mesh
      ++ replicate (length (surviving triangles)) shape_msgs.new_MeshTriangle
  /\ shape_msgs.vertex_indices shape_msgs.new_MeshTriangle = (0, 0, 0)%N
  /\ shape_msgs.triangles (response_mesh (onTriangulatePcl L req res)) =
     shape_msgs.triangles (TriangulatePCL.mesh res)
       ++ replicate
            (length (surviving
               (ConvexHull_reconstruct L {| pcl.points := [] |} {| pcl.points := [] |} []).2))
            shape_msgs.new_MeshTriangle.
Proof.
  split; [|split].
  - rewrite polygonMeshToShapeMsg_spec. reflexivity.
  - reflexivity.
  - unfold response_mesh. rewrite onTriangulatePcl_value. reflexivity.
Qed.

(** C3, as amended.  The smoothing stage has no failure: for every input
    cloud, the empty one included, it is one call of [process] on the
    cloud with the indices [0 .. n-1], the polynomial fit on and the search
    radius 0.03, and it returns that call's cloud; and no request makes the
    handler report a failure. *)
Theorem smooth_never_fails (L : Library) :
  (forall cloud : pcl.PointCloud pcl.PointXYZ,
     smooth L cloud =
     MovingLeastSquares_process L
       {| mls_input := cloud;
          mls_indices := (fun i => to_int (Z.of_nat i)) <$> seq 0 (length (pcl.points cloud));
          mls_polynomial_fit := true;
          mls_search_method := KdTree_setInputCloud L cloud;
          mls_search_radius := 0x1.eb851eb851eb8p-6 |})
  /\ (forall req res, ¬ request_failed (onTriangulatePcl L req res)).
Proof.
  split.
  - intros cloud. unfold smooth. cbv zeta. rewrite make_indices_spec. reflexivity.
  - intros req res. unfold request_failed. rewrite onTriangulatePcl_value. discriminate.
Qed.

(** C3, as stated, fails on the empty cloud: the cloud that reaches the
    smoother is empty and the handler does not report a failure. *)
Lemma smooth_empty_cloud_succeeds :
  ¬ (request_failed (onTriangulatePcl sample_library empty_request new_Response)
     <-> pcl.points (request_cloud sample_library empty_request) = []).
Proof. intros [_ Hfail]. discriminate (Hfail eq_refl). Qed.

(** C6.  A polygon with fewer than 3 indices leaves the mesh as it was and
    logs one warning; any other polygon appends one triangle and logs
    nothing.  Over the whole list: the warnings logged are one per dropped
    polygon, the triangles appended are one per surviving polygon, every
    surviving polygon has at least 3 indices, and each polygon is either
    dropped or surviving.  The function returns a mesh in every case. *)
Theorem polygonMeshToShapeMsg_drops_small_polygons {T : Type} `{HasXYZ T}
    (points : pcl.PointCloud T) (triangles : list pcl.Vertices) (mesh : shape_msgs.Mesh) :
  (forall polygon m,
     polygon_body polygon m =
     if decide (length (pcl.vertices polygon) < 3)
     then {| value := m; output := [polygon_warning] |}
     else {| value := shape_msgs.set_triangles
                        (shape_msgs.triangles m ++ [shape_msgs.new_MeshTriangle]) m;
             output := [] |})
  /\ filter (fun r => level r = WARN) (output (polygonMeshToShapeMsg points triangles mesh))
     = replicate (length (dropped triangles)) polygon_warning
  /\ length (shape_msgs.triangles (value (polygonMeshToShapeMsg points triangles mesh)))
     = length (shape_msgs.triangles mesh) + length (surviving triangles)
  /\ Forall (fun polygon => 3 ≤ length (pcl.vertices polygon)) (surviving triangles)
  /\ Forall (fun polygon => length (pcl.vertices polygon) < 3) (dropped triangles)
  /\ length (dropped triangles) + length (surviving triangles) = length triangles.
Proof.
  split; [|split; [|split; [|split; [|split]]]].
  - intros polygon m. destruct (decide (length (pcl.vertices polygon) < 3)).
    + apply polygon_body_dropped; assumption.
    + apply polygon_body_surviving; assumption.
  - rewrite polygonMeshToShapeMsg_spec. cbn [output].
    rewrite filter_cons, decide_False by discriminate.
    induction (length (dropped triangles)) as [|n IH]; [reflexivity|].
    cbn [replicate]. rewrite filter_cons, decide_True by reflexivity.
    rewrite IH. reflexivity.
  - rewrite polygonMeshToShapeMsg_spec. cbn [value shape_msgs.triangles].
    rewrite length_app, length_replicate. reflexivity.
  - unfold surviving. apply Forall_forall. intros polygon Hin.
    apply list_elem_of_filter in Hin as [Hge _]. lia.
  - unfold dropped. apply Forall_forall. intros polygon Hin.
    apply list_elem_of_filter in Hin as [Hlt _]. exact Hlt.
  - unfold dropped, surviving. induction triangles as [|polygon triangles IH].
    + reflexivity.
    + rewrite !filter_cons.
      destruct (decide (length (pcl.vertices polygon) < 3)) as [Hlt|Hge].
      * rewrite decide_False by tauto. simpl. lia.
      * rewrite decide_True by exact Hge. simpl. lia.
Qed.

(** C7 (the code departs from the claim).  One triangle per surviving
    polygon is emitted, but its indices are not the polygon's first three:
    for the polygon (1, 2, 3) over the four points of the tetrahedron the
    mesh holds the single triangle (0, 0, 0), not (1, 2, 3). *)
Theorem polygonMeshToShapeMsg_loses_indices :
  shape_msgs.triangles
    (value (polygonMeshToShapeMsg tetrahedron [ {| pcl.vertices := [1; 2; 3]%N |} ]
              shape_msgs.new_Mesh))
  = [ {| shape_msgs.vertex_indices := (0, 0, 0)%N |} ]
  /\ shape_msgs.triangles
       (value (polygonMeshToShapeMsg tetrahedron [ {| pcl.vertices := [1; 2; 3]%N |} ]
                 shape_msgs.new_Mesh))
     ≠ [ {| shape_msgs.vertex_indices := (1, 2, 3)%N |} ].
Proof. split; [reflexivity | discriminate]. Qed.




(** * Further properties of the code *)

Lemma filter_replicate_true {A : Type} (P : A -> Prop) `{!∀ x, Decision (P x)}
    (n : nat) (x : A) :
  P x -> filter P (replicate n x) = replicate n x.
Proof.
  intros Hx. induction n as [|n IH]; [reflexivity|].
  cbn [replicate]. rewrite filter_cons, decide_True by exact Hx. rewrite IH. reflexivity.
Qed.

Lemma filter_replicate_false {A : Type} (P : A -> Prop) `{!∀ x, Decision (P x)}
    (n : nat) (x : A) :
  ¬ P x -> filter P (replicate n x) = [].
Proof.
  intros Hx. induction n as [|n IH]; [reflexivity|].
  cbn [replicate]. rewrite filter_cons, decide_False by exact Hx. exact IH.
Qed.

Lemma to_int_small (n : Z) : (0 ≤ n < 2 ^ 31)%Z -> to_int n = n.
Proof.
  intros Hn. unfold to_int. rewrite Z.mod_small by lia. lia.
Qed.

(** X1.  The vertices that [polygonMeshToShapeMsg] leaves are the cloud's
    points, one for one and in the cloud's order, each with the point's
    three coordinates; what vertices the mesh held before, more or fewer
    than the cloud has points, leaves no trace. *)
Theorem polygonMeshToShapeMsg_vertices {T : Type} `{HasXYZ T}
    (points : pcl.PointCloud T) (triangles : list pcl.Vertices) (mesh : shape_msgs.Mesh) :
  length (shape_msgs.vertices (value (polygonMeshToShapeMsg points triangles mesh)))
    = length (pcl.points points)
  /\ forall i : nat,
       shape_msgs.vertices (value (polygonMeshToShapeMsg points triangles mesh)) !! i
       = (fun p => {| geometry_msgs.x := get_x p;
                      geometry_msgs.y := get_y p;
                      geometry_msgs.z := get_z p |}) <$> (pcl.points points !! i).
Proof.
  rewrite polygonMeshToShapeMsg_spec. cbn [value shape_msgs.vertices]. split.
  - apply length_fmap.
  - intros i. rewrite list_lookup_fmap. reflexivity.
Qed.

(** X2.  For a cloud of at most 2^31 points, the indices that
    [reconstructMesh] gives the smoother are 0, 1, ..., n-1, each once and
    in increasing order: the conversion to [int] changes none of them. *)
Theorem make_indices_identity (cloud : pcl.PointCloud pcl.PointXYZ) :
  (Z.of_nat (length (pcl.points cloud)) ≤ 2 ^ 31)%Z ->
  make_indices cloud = Z.of_nat <$> seq 0 (length (pcl.points cloud)).
Proof.
  intros Hsize. rewrite make_indices_spec.
  apply list_fmap_ext. intros i k Hk.
  apply lookup_seq in Hk as [-> Hlt]. apply to_int_small. lia.
Qed.

(** The statement above on the tetrahedron. *)
Lemma make_indices_identity_witness :
  make_indices tetrahedron = Z.of_nat <$> seq 0 (length (pcl.points tetrahedron)).
Proof.
  apply make_indices_identity. simpl. lia.
Defined.

(** X3.  [polygonMeshToShapeMsg] replaces the vertices and adds to the
    triangles: run a second time on the mesh the first run left, it leaves
    as vertices the points of the second cloud alone, none of the first,
    and as triangles those of the incoming mesh followed by one default
    triangle per surviving polygon of the first and of the second run. *)
Theorem polygonMeshToShapeMsg_twice {T : Type} `{HasXYZ T}
    (points1 points2 : pcl.PointCloud T) (triangles1 triangles2 : list pcl.Vertices)
    (mesh : shape_msgs.Mesh) :
  value (polygonMeshToShapeMsg points2 triangles2
           (value (polygonMeshToShapeMsg points1 triangles1 mesh)))
  = {| shape_msgs.triangles :=
         shape_msgs.triangles mesh
           ++ replicate (length (surviving triangles1)) shape_msgs.new_MeshTriangle
           ++ replicate (length (surviving triangles2)) shape_msgs.new_MeshTriangle;
       shape_msgs.vertices :=
         (fun p => {| geometry_msgs.x := get_x p;
                      geometry_msgs.y := get_y p;
                      geometry_msgs.z := get_z p |}) <$> pcl.points points2 |}.
Proof.
  rewrite !polygonMeshToShapeMsg_spec. cbn [value shape_msgs.triangles shape_msgs.vertices].
  rewrite <- app_assoc. reflexivity.
Qed.

(** X4.  The handler's response and log do not depend on the request: any
    two requests, given the same response object, leave the same response
    and the same log. *)
Theorem onTriangulatePcl_ignores_request (L : Library)
    (req1 req2 : TriangulatePCL.Request) (res : TriangulatePCL.Response) :
  onTriangulatePcl L req1 res = onTriangulatePcl L req2 res.
Proof.
  pose proof (onTriangulatePcl_value L req1 res) as Hv1.
  pose proof (onTriangulatePcl_value L req2 res) as Hv2.
  pose proof (onTriangulatePcl_output L req1 res) as Ho1.
  pose proof (onTriangulatePcl_output L req2 res) as Ho2.
  destruct (onTriangulatePcl L req1 res) as [v1 o1].
  destruct (onTriangulatePcl L req2 res) as [v2 o2].
  simpl in *. rewrite Hv1, Hv2, Ho1, Ho2. reflexivity.
Qed.

(** X5.  The handler does not clear the triangles of the response it is
    given.  Run again on the response a first run left, it keeps the
    vertices and appends as many triangles again; the response is left
    as it was exactly when the hull has no polygon of 3 or more indices. *)
Theorem onTriangulatePcl_again (L : Library)
    (req req' : TriangulatePCL.Request) (res : TriangulatePCL.Response) :
  shape_msgs.vertices
    (response_mesh (onTriangulatePcl L req' (value (onTriangulatePcl L req res)).2))
  = shape_msgs.vertices (response_mesh (onTriangulatePcl L req res))
  /\ shape_msgs.triangles
       (response_mesh (onTriangulatePcl L req' (value (onTriangulatePcl L req res)).2))
     = shape_msgs.triangles (response_mesh (onTriangulatePcl L req res))
         ++ replicate
              (length (surviving
                 (ConvexHull_reconstruct L {| pcl.points := [] |} {| pcl.points := [] |} []).2))
              shape_msgs.new_MeshTriangle
  /\ ((value (onTriangulatePcl L req' (value (onTriangulatePcl L req res)).2)).2
        = (value (onTriangulatePcl L req res)).2
      <-> surviving
            (ConvexHull_reconstruct L {| pcl.points := [] |} {| pcl.points := [] |} []).2
          = []).
Proof.
  unfold response_mesh. rewrite !onTriangulatePcl_value. cbv zeta.
  cbn [snd fst TriangulatePCL.mesh shape_msgs.triangles shape_msgs.vertices].
  split; [reflexivity|]. split; [reflexivity|].
  destruct (surviving _) as [|polygon rest].
  - simpl. rewrite !app_nil_r. split; reflexivity.
  - split; [|discriminate]. intros Heq. exfalso.
    injection Heq as Heq.
    apply (f_equal length) in Heq. rewrite !length_app in Heq. simpl in Heq. lia.
Qed.

(** X8.  Of the response it is given the handler reads the triangles and
    nothing else: two responses lead to the same outcome (return value,
    response and log) exactly when they hold the same triangles, whatever
    vertices they hold. *)
Theorem onTriangulatePcl_reads_triangles_only (L : Library)
    (req : TriangulatePCL.Request) (res1 res2 : TriangulatePCL.Response) :
  onTriangulatePcl L req res1 = onTriangulatePcl L req res2
  <-> shape_msgs.triangles (TriangulatePCL.mesh res1)
      = shape_msgs.triangles (TriangulatePCL.mesh res2).
Proof.
  pose proof (onTriangulatePcl_value L req res1) as Hv1.
  pose proof (onTriangulatePcl_value L req res2) as Hv2.
  pose proof (onTriangulatePcl_output L req res1) as Ho1.
  pose proof (onTriangulatePcl_output L req res2) as Ho2.
  destruct (onTriangulatePcl L req res1) as [v1 o1].
  destruct (onTriangulatePcl L req res2) as [v2 o2].
  simpl in *. subst v1 v2 o1 o2. split.
  - intros Heq. injection Heq as Heq. apply app_inv_tail in Heq. exact Heq.
  - intros Hsame. rewrite Hsame. reflexivity.
Qed.

(** On the sample data: a response that still holds two vertices of an
    earlier mesh, and a fresh one. *)
Example onTriangulatePcl_stale_vertices :
  onTriangulatePcl sample_library tetrahedron_request stale_Response
  = onTriangulatePcl sample_library tetrahedron_request new_Response.
Proof. reflexivity. Qed.

(** X6.  The number that [polygonMeshToShapeMsg] logs as found is the
    number of triangles it appends plus the number of warnings it logs,
    and its log is that one record followed by the warnings. *)
Theorem polygonMeshToShapeMsg_log_count {T : Type} `{HasXYZ T}
    (points : pcl.PointCloud T) (triangles : list pcl.Vertices) (mesh : shape_msgs.Mesh) :
  output (polygonMeshToShapeMsg points triangles mesh)
  = {| level := INFO; format := "Found %ld polygons";
       args :=
         [ Z.of_nat
             ((length (shape_msgs.triangles (value (polygonMeshToShapeMsg points triangles mesh)))
                 - length (shape_msgs.triangles mesh))
              + length (filter (fun r => level r = WARN)
                          (output (polygonMeshToShapeMsg points triangles mesh)))) ] |}
      :: filter (fun r => level r = WARN) (output (polygonMeshToShapeMsg points triangles mesh)).
Proof.
  rewrite polygonMeshToShapeMsg_spec. cbn [value output shape_msgs.triangles].
  rewrite filter_cons, decide_False by discriminate.
  rewrite filter_replicate_true by reflexivity.
  rewrite length_app, !length_replicate.
  replace (length (shape_msgs.triangles mesh) + length (surviving triangles)
             - length (shape_msgs.triangles mesh))
    with (length (surviving triangles)) by lia.
  assert (Hsplit : length (surviving triangles) + length (dropped triangles) = length triangles).
  { unfold dropped, surviving. induction triangles as [|polygon triangles IH]; [reflexivity|].
    rewrite !filter_cons.
    destruct (decide (length (pcl.vertices polygon) < 3)) as [Hlt|Hge].
    - rewrite decide_False by tauto. simpl. lia.
    - rewrite decide_True by exact Hge. simpl. lia. }
  rewrite Hsplit. reflexivity.
Qed.

(** X7.  [test] runs the handler once when the file is read and not at all
    when it is not: the ROS log holds one "Service request received" in
    the first case and is empty in the second, and PCL's console stays
    empty exactly when the file is read. *)
Theorem test_runs_handler_once (L : Library) (TL : TestLibrary L) :
  length (filter (fun r => r = request_received) (ros_log (test L TL)))
    = (if decide (((PCDReader_read TL "test_data/ism_test_cat.pcd").1 < 0)%Z) then 0 else 1)
  /\ (ros_log (test L TL) = []
      <-> ((PCDReader_read TL "test_data/ism_test_cat.pcd").1 < 0)%Z)
  /\ (console (test L TL) = []
      <-> ¬ ((PCDReader_read TL "test_data/ism_test_cat.pcd").1 < 0)%Z).
Proof.
  unfold test.
  destruct (PCDReader_read TL "test_data/ism_test_cat.pcd") as [code pcl_cloud].
  cbn [fst]. destruct (decide (code < 0)%Z) as [Hfail|Hread]; cbn [ros_log console].
  - split; [reflexivity|]. split; [tauto|]. split; [discriminate | tauto].
  - rewrite onTriangulatePcl_output. cbv zeta. split; [|split].
    + rewrite !filter_app.
      rewrite (filter_replicate_false (fun r => r = request_received)) by discriminate.
      rewrite !filter_cons, filter_nil.
      rewrite decide_True by reflexivity.
      rewrite !decide_False by discriminate. reflexivity.
    + split; [discriminate | tauto].
    + split; [tauto | reflexivity].
Qed.

(** Two runs of [test] on the sample data: the file is found, and it is
    not. *)
Example test_file_found :
  console (test sample_library sample_test_library) = []
  /\ length (ros_log (test sample_library sample_test_library)) = 6.
Proof. split; reflexivity. Qed.

Example test_file_missing :
  test sample_library missing_file_library =
  {| console := ["Couldn't read file test_data/ism_test_cat.pcd " +:+ newline];
     ros_log := [] |}.
Proof. reflexivity. Qed.
